(** * The SSL module of Simba ([src/inet/ssl.c]) over mbedTLS

    The file is a thin layer that owns three flags of its own
    ([initialized], [ssl_allocated], [conf_allocated]) and sequences calls
    into the mbedTLS engine.  The embedding keeps that split:

    - the flags are a record [module_t], threaded through a state monad;
    - every call into the engine is a node of a program tree ([prog]); the
      engine is {e not} fixed: a program is run against an arbitrary engine
      ([engine E], any state type [E]), and the run records the calls that
      were made, with their arguments, in a trace.

    The caller's objects ([struct ssl_context_t], [struct ssl_socket_t]) are
    passed in and handed back explicitly; a null pointer to one of them is
    [None]. *)

From Stdlib Require Import ZArith List String Bool Lia.
Import ListNotations.
Local Open Scope Z_scope.

(** ** Pointers, callbacks and constants *)

(** The objects whose address the module takes: the mbedTLS objects embedded
    in the static [module], and anything the caller owns ([extern]). *)
Inductive object : Type :=
| module_cookie_ctx
| module_entropy
| module_ctr_drbg
| module_ssl
| module_conf
| module_cert
| module_key
| module_timer
| extern (n : N).

Inductive pointer : Type :=
| NULL
| addr (o : object).

Definition is_null (p : pointer) : bool :=
  match p with
  | NULL => true
  | addr _ => false
  end.

(** Function pointers handed to the engine. *)
Inductive callback : Type :=
| fn_null
| fn_mbedtls_entropy_func
| fn_mbedtls_ctr_drbg_random
| fn_ssl_send
| fn_ssl_recv.

(** The three mbedTLS constants the module passes, kept symbolic. *)
Inductive mbedtls_const : Type :=
| MBEDTLS_SSL_IS_SERVER
| MBEDTLS_SSL_TRANSPORT_STREAM
| MBEDTLS_SSL_PRESET_DEFAULT.

(** Modelled from the spec: the errno constant behind the spec's
    [InvalidArgument]; its definition lives in a header that is not part of
    the sources at hand.  The value is the customary one. *)
Definition EINVAL : Z := 22.

(** C enumerations are integers. *)
Definition ssl_protocol_t : Type := Z.
Definition ssl_socket_mode_t : Type := Z.

(** ** The module's own data *)

(** [struct module_t]: the three [int] flags.  The mbedTLS members of the
    struct ([cookie_ctx], [entropy], [ctr_drbg], [ssl], [conf], [cert],
    [key], [timer]) are memory of the engine: the module only ever passes
    their addresses, so they live in the engine's state. *)
Record module_t : Type := mk_module {
  initialized : Z;
  ssl_allocated : Z;
  conf_allocated : Z
}.

Definition set_initialized (v : Z) (m : module_t) : module_t :=
  mk_module v (ssl_allocated m) (conf_allocated m).

Definition set_ssl_allocated (v : Z) (m : module_t) : module_t :=
  mk_module (initialized m) v (conf_allocated m).

Definition set_conf_allocated (v : Z) (m : module_t) : module_t :=
  mk_module (initialized m) (ssl_allocated m) v.

(** The fields of the caller's structs that the file reads or writes. *)
Record ssl_context_t : Type := mk_context {
  protocol : ssl_protocol_t;
  conf_p : pointer
}.

Record ssl_socket_t : Type := mk_socket {
  ssl_p : pointer
}.

(** ** Calls into the engine *)

(** Engine functions whose result the C type makes [void]. *)
Inductive void_call : Type :=
| mbedtls_entropy_init (ctx : pointer)
| mbedtls_ctr_drbg_init (ctx : pointer)
| mbedtls_ssl_config_init (conf : pointer)
| mbedtls_ssl_cookie_init (ctx : pointer)
| mbedtls_x509_crt_init (crt : pointer)
| mbedtls_pk_init (ctx : pointer)
| mbedtls_ssl_conf_rng (conf : pointer) (f_rng : callback) (p_rng : pointer)
| mbedtls_ssl_conf_ca_chain (conf ca_chain ca_crl : pointer)
| mbedtls_ssl_init (ssl : pointer)
| mbedtls_ssl_set_bio (ssl p_bio : pointer)
    (f_send f_recv f_recv_timeout : callback)
| mbedtls_ssl_free (ssl : pointer).

(** Engine (and socket) functions that return an [int]. *)
Inductive int_call : Type :=
| mbedtls_ctr_drbg_seed (ctx : pointer) (f_entropy : callback)
    (p_entropy : pointer) (custom : string) (len : Z)
| mbedtls_ssl_config_defaults (conf : pointer)
    (endpoint transport preset : mbedtls_const)
| mbedtls_x509_crt_parse (chain : pointer) (buf : string) (buflen : Z)
| mbedtls_pk_parse_key (ctx : pointer) (key : string) (keylen : Z)
    (pwd : pointer) (pwdlen : Z)
| mbedtls_ssl_conf_own_cert (conf own_cert pk_key : pointer)
| mbedtls_ssl_setup (ssl conf : pointer)
| mbedtls_ssl_handshake (ssl : pointer)
| mbedtls_ssl_close_notify (ssl : pointer)
| mbedtls_ssl_write (ssl buf : pointer) (len : Z)
| mbedtls_ssl_read (ssl buf : pointer) (len : Z)
| socket_write (self buf : pointer) (size : Z)
| socket_read (self buf : pointer) (size : Z).

(** Pointer-valued fields of engine objects that the module reads. *)
Inductive field : Type :=
| module_cert_next.

Inductive event : Type :=
| ev_void (c : void_call)
| ev_int (c : int_call)
| ev_load (f : field).

(** A program: a result, or a call into the engine and what follows. *)
Inductive prog (A : Type) : Type :=
| Ret (a : A)
| Void (c : void_call) (k : prog A)
| Int (c : int_call) (k : Z -> prog A)
| Fetch (f : field) (k : pointer -> prog A).

Arguments Ret {A} a.
Arguments Void {A} c k.
Arguments Int {A} c k.
Arguments Fetch {A} f k.

(** An engine: what each call does to the engine's state and what it
    answers. *)
Record engine (E : Type) : Type := mk_engine {
  do_void : void_call -> E -> E;
  do_int : int_call -> E -> Z * E;
  do_load : field -> E -> pointer
}.

Arguments do_void {E} _ _ _.
Arguments do_int {E} _ _ _.
Arguments do_load {E} _ _ _.

(** What a run leaves behind. *)
Record outcome (A E : Type) : Type := mk_outcome {
  result : A;
  engine_state : E;
  trace : list event
}.

Arguments mk_outcome {A E} _ _ _.
Arguments result {A E} _.
Arguments engine_state {A E} _.
Arguments trace {A E} _.

Definition logged {A E : Type} (ev : event) (o : outcome A E) : outcome A E :=
  mk_outcome (result o) (engine_state o) (ev :: trace o).

Fixpoint exec {A E : Type} (h : engine E) (p : prog A) (e : E) : outcome A E :=
  match p with
  | Ret a => mk_outcome a e []
  | Void c k => logged (ev_void c) (exec h k (do_void h c e))
  | Int c k =>
      let '(r, e') := do_int h c e in
      logged (ev_int c) (exec h (k r) e')
  | Fetch f k => logged (ev_load f) (exec h (k (do_load h f e)) e)
  end.

Fixpoint prog_bind {A B : Type} (p : prog A) (f : A -> prog B) : prog B :=
  match p with
  | Ret a => f a
  | Void c k => Void c (prog_bind k f)
  | Int c k => Int c (fun r => prog_bind (k r) f)
  | Fetch l k => Fetch l (fun v => prog_bind (k v) f)
  end.

(** ** The monad of the module: its flags on top of engine calls *)

Definition M (A : Type) : Type := module_t -> prog (A * module_t).

Definition ret {A : Type} (a : A) : M A := fun m => Ret (a, m).

Definition bind {A B : Type} (x : M A) (f : A -> M B) : M B :=
  fun m => prog_bind (x m) (fun am => f (fst am) (snd am)).

Definition get : M module_t := fun m => Ret (m, m).
Definition put (m' : module_t) : M unit := fun _ => Ret (tt, m').

Definition call_void (c : void_call) : M unit :=
  fun m => Void c (Ret (tt, m)).
Definition call_int (c : int_call) : M Z :=
  fun m => Int c (fun r => Ret (r, m)).
Definition load (f : field) : M pointer :=
  fun m => Fetch f (fun v => Ret (v, m)).

Declare Scope ssl_scope.
Delimit Scope ssl_scope with ssl.
Notation "x <- c1 ;; c2" := (bind c1 (fun x => c2))
  (at level 100, c1 at next level, right associativity) : ssl_scope.
Notation "c1 ;; c2" := (bind c1 (fun _ => c2))
  (at level 100, right associativity) : ssl_scope.
Local Open Scope ssl_scope.

(** Running a module function from flags [m] and engine state [e]. *)
Definition run {A E : Type} (h : engine E) (x : M A) (m : module_t) (e : E)
  : outcome (A * module_t) E :=
  exec h (x m) e.

Definition value {A E : Type} (o : outcome (A * module_t) E) : A :=
  fst (result o).
Definition flags {A E : Type} (o : outcome (A * module_t) E) : module_t :=
  snd (result o).

(** Modelled from the spec: the macro [ASSERTN(cond, n)] comes from a header
    that is not among the sources.  The spec reports each guarded call as
    failing with the given code, so a false condition makes the enclosing
    function return [n] at once. *)
Definition ASSERTN {A : Type} (cond : bool) (n : A) (k : M A) : M A :=
  if cond then k else ret n.

(** [ASSERTN(p != NULL, n)] on a pointer to a caller's struct, followed by
    the use of the struct it points to. *)
Definition ASSERTN_not_null {S A : Type} (p : option S) (n : A)
  (k : S -> M A) : M A :=
  match p with
  | Some s => k s
  | None => ret n
  end.

Definition nonzero (r : Z) : bool := negb (r =? 0).

(** ** The functions of [ssl.c] *)

Definition alloc_ssl : M pointer :=
  module <- get ;;
  if ssl_allocated module =? 1 then ret NULL
  else
    put (set_ssl_allocated 1 module) ;;
    ret (addr module_ssl).

Definition free_ssl (ssl_p : pointer) : M unit :=
  module <- get ;;
  put (set_ssl_allocated 0 module).

Definition alloc_conf : M pointer :=
  module <- get ;;
  if conf_allocated module =? 1 then ret NULL
  else
    put (set_conf_allocated 1 module) ;;
    ret (addr module_conf).

Definition free_conf (conf_p : pointer) : M unit :=
  module <- get ;;
  put (set_conf_allocated 0 module).

Definition ssl_send (ctx_p buf_p : pointer) (len : Z) : M Z :=
  call_int (socket_write ctx_p buf_p len).

Definition ssl_recv (ctx_p buf_p : pointer) (len : Z) : M Z :=
  call_int (socket_read ctx_p buf_p len).

Definition ssl_module_init : M Z :=
  module <- get ;;
  if initialized module =? 1 then ret 0
  else
    put (set_initialized 1 module) ;;
    call_void (mbedtls_entropy_init (addr module_entropy)) ;;
    call_void (mbedtls_ctr_drbg_init (addr module_ctr_drbg)) ;;
    r <- call_int (mbedtls_ctr_drbg_seed (addr module_ctr_drbg)
                     fn_mbedtls_entropy_func (addr module_entropy)
                     "hej" 3) ;;
    if nonzero r then ret (-1)
    else ret 0.

Definition ssl_context_init (self_p : option ssl_context_t)
  (protocol : ssl_protocol_t) : M (Z * option ssl_context_t) :=
  ASSERTN_not_null self_p (- EINVAL, self_p) (fun self =>
  module <- get ;;
  ASSERTN (initialized module =? 1) (- EINVAL, self_p) (
  (* self_p->protocol = protocol; self_p->conf_p = alloc_conf(); *)
  conf_p <- alloc_conf ;;
  let self := mk_context protocol conf_p in
  if is_null conf_p then ret (-1, Some self)
  else
    call_void (mbedtls_ssl_config_init conf_p) ;;
    call_void (mbedtls_ssl_cookie_init (addr module_cookie_ctx)) ;;
    call_void (mbedtls_x509_crt_init (addr module_cert)) ;;
    call_void (mbedtls_pk_init (addr module_key)) ;;
    r <- call_int (mbedtls_ssl_config_defaults conf_p
                     MBEDTLS_SSL_IS_SERVER
                     MBEDTLS_SSL_TRANSPORT_STREAM
                     MBEDTLS_SSL_PRESET_DEFAULT) ;;
    if nonzero r then ret (-1, Some self)
    else
      call_void (mbedtls_ssl_conf_rng conf_p
                   fn_mbedtls_ctr_drbg_random (addr module_ctr_drbg)) ;;
      ret (0, Some self))).

Definition ssl_context_deinit (self_p : option ssl_context_t) : M Z :=
  ASSERTN_not_null self_p (- EINVAL) (fun self =>
  ASSERTN (negb (is_null (conf_p self))) (- EINVAL) (
  free_conf (conf_p self) ;;
  ret 0)).

(** [strlen(s) + 1]; a C string and its terminator fit in memory, so the
    sum does not wrap. *)
Definition strlen1 (s : string) : Z := Z.of_nat (String.length s) + 1.

Definition ssl_context_load_cert_chain (self_p : option ssl_context_t)
  (cert_p key_p : option string) : M Z :=
  ASSERTN_not_null self_p (- EINVAL) (fun self =>
  ASSERTN (negb (is_null (conf_p self))) (- EINVAL) (
  ASSERTN_not_null cert_p (- EINVAL) (fun cert =>
  (* Parse the certificate. *)
  r <- call_int (mbedtls_x509_crt_parse (addr module_cert)
                   cert (strlen1 cert)) ;;
  if nonzero r then ret (-1)
  else
    (* Parse the key if present. *)
    r <- match key_p with
         | Some key =>
             call_int (mbedtls_pk_parse_key (addr module_key)
                         key (strlen1 key) NULL 0)
         | None => ret 0
         end ;;
    if nonzero r then ret (-1)
    else
      next <- load module_cert_next ;;
      call_void (mbedtls_ssl_conf_ca_chain (conf_p self) next NULL) ;;
      r <- call_int (mbedtls_ssl_conf_own_cert (conf_p self)
                       (addr module_cert) (addr module_key)) ;;
      if nonzero r then ret (-1)
      else ret 0))).

Definition ssl_socket_open (self_p : option ssl_socket_t)
  (context_p : option ssl_context_t) (socket_p : pointer)
  (mode : ssl_socket_mode_t) : M (Z * option ssl_socket_t) :=
  module <- get ;;
  ASSERTN (initialized module =? 1) (- EINVAL, self_p) (
  ASSERTN_not_null self_p (- EINVAL, self_p) (fun self =>
  ASSERTN_not_null context_p (- EINVAL, self_p) (fun context =>
  ASSERTN (negb (is_null socket_p)) (- EINVAL, self_p) (
  (* self_p->ssl_p = alloc_ssl(); *)
  ssl_p <- alloc_ssl ;;
  let self := mk_socket ssl_p in
  (* err: free_ssl(self_p->ssl_p); return (res); *)
  let err (res : Z) := (free_ssl ssl_p ;; ret (res, Some self)) in
  if is_null ssl_p then ret (-1, Some self)
  else
    call_void (mbedtls_ssl_init ssl_p) ;;
    res <- call_int (mbedtls_ssl_setup ssl_p (addr module_conf)) ;;
    if nonzero res then err res
    else
      call_void (mbedtls_ssl_set_bio ssl_p socket_p
                   fn_ssl_send fn_ssl_recv fn_null) ;;
      res <- call_int (mbedtls_ssl_handshake ssl_p) ;;
      if nonzero res then
        call_void (mbedtls_ssl_free ssl_p) ;;
        err res
      else ret (0, Some self))))).

Definition ssl_socket_close (self_p : option ssl_socket_t) : M Z :=
  ASSERTN_not_null self_p (- EINVAL) (fun self =>
  ASSERTN (negb (is_null (ssl_p self))) (- EINVAL) (
  call_int (mbedtls_ssl_close_notify (ssl_p self)) ;;
  call_void (mbedtls_ssl_free (ssl_p self)) ;;
  free_ssl (ssl_p self) ;;
  ret 0)).

Definition ssl_socket_write (self_p : option ssl_socket_t)
  (buf_p : pointer) (size : Z) : M Z :=
  ASSERTN_not_null self_p (- EINVAL) (fun self =>
  ASSERTN (negb (is_null (ssl_p self))) (- EINVAL) (
  ASSERTN (negb (is_null buf_p)) (- EINVAL) (
  call_int (mbedtls_ssl_write (ssl_p self) buf_p size)))).

Definition ssl_socket_read (self_p : option ssl_socket_t)
  (buf_p : pointer) (size : Z) : M Z :=
  ASSERTN_not_null self_p (- EINVAL) (fun self =>
  ASSERTN (negb (is_null (ssl_p self))) (- EINVAL) (
  ASSERTN (negb (is_null buf_p)) (- EINVAL) (
  call_int (mbedtls_ssl_read (ssl_p self) buf_p size)))).

Definition ssl_socket_size (self_p : option ssl_socket_t) : M Z :=
  ASSERTN_not_null self_p (- EINVAL) (fun self =>
  ret 0).

(** ** Sequences of calls made by an application *)

(** One call of the module's public interface, with its arguments. *)
Inductive api : Type :=
| ModuleInit
| ContextInit (self_p : option ssl_context_t) (protocol : ssl_protocol_t)
| ContextDeinit (self_p : option ssl_context_t)
| LoadCertificateChain (self_p : option ssl_context_t)
    (cert_p key_p : option string)
| SessionOpen (self_p : option ssl_socket_t)
    (context_p : option ssl_context_t) (socket_p : pointer)
    (mode : ssl_socket_mode_t)
| SessionClose (self_p : option ssl_socket_t)
| SessionWrite (self_p : option ssl_socket_t) (buf_p : pointer) (size : Z)
| SessionRead (self_p : option ssl_socket_t) (buf_p : pointer) (size : Z)
| SessionSize (self_p : option ssl_socket_t).

Definition returned {A B : Type} (x : M (A * B)) : M A :=
  ab <- x ;; ret (fst ab).

(** The return code of one call. *)
Definition perform (c : api) : M Z :=
  match c with
  | ModuleInit => ssl_module_init
  | ContextInit self_p protocol => returned (ssl_context_init self_p protocol)
  | ContextDeinit self_p => ssl_context_deinit self_p
  | LoadCertificateChain self_p cert_p key_p =>
      ssl_context_load_cert_chain self_p cert_p key_p
  | SessionOpen self_p context_p socket_p mode =>
      returned (ssl_socket_open self_p context_p socket_p mode)
  | SessionClose self_p => ssl_socket_close self_p
  | SessionWrite self_p buf_p size => ssl_socket_write self_p buf_p size
  | SessionRead self_p buf_p size => ssl_socket_read self_p buf_p size
  | SessionSize self_p => ssl_socket_size self_p
  end.

(** A whole sequence, one call after the other; the return codes in order. *)
Fixpoint perform_all (cs : list api) : M (list Z) :=
  match cs with
  | [] => ret []
  | c :: cs' =>
      r <- perform c ;;
      rs <- perform_all cs' ;;
      ret (r :: rs)
  end.

(** ** Concrete engines, to run the module on *)

(** An engine without state whose answers are given by [answer]; the
    [next] link of the module's certificate is [next]. *)
Definition scripted (answer : int_call -> Z) (next : pointer) : engine unit :=
  mk_engine unit (fun _ e => e) (fun c e => (answer c, e)) (fun _ _ => next).

(** Every engine call succeeds. *)
Definition all_succeed : int_call -> Z := fun _ => 0.

Definition is_seed (ev : event) : bool :=
  match ev with
  | ev_int (mbedtls_ctr_drbg_seed _ _ _ _ _) => true
  | _ => false
  end.

(** Engines that fail at one step; the codes are mbedTLS error codes
    ([MBEDTLS_ERR_CTR_DRBG_ENTROPY_SOURCE_FAILED], [MBEDTLS_ERR_SSL_ALLOC_FAILED],
    [MBEDTLS_ERR_NET_CONN_RESET]). *)
Definition seed_fails (c : int_call) : Z :=
  match c with
  | mbedtls_ctr_drbg_seed _ _ _ _ _ => -52
  | _ => 0
  end.

Definition defaults_fail (c : int_call) : Z :=
  match c with
  | mbedtls_ssl_config_defaults _ _ _ _ => -32512
  | _ => 0
  end.

Definition handshake_fails (c : int_call) : Z :=
  match c with
  | mbedtls_ssl_handshake _ => -80
  | _ => 0
  end.

(** An engine that transfers every byte it is asked to. *)
Definition transfers_all (c : int_call) : Z :=
  match c with
  | mbedtls_ssl_write _ _ len => len
  | mbedtls_ssl_read _ _ len => len
  | _ => 0
  end.

(** An engine that keeps track of whether the session object is set up,
    the way mbedTLS does: [mbedtls_ssl_init] and [mbedtls_ssl_free] leave it
    blank, [mbedtls_ssl_setup] sets it up, and on a blank session the
    record functions answer [MBEDTLS_ERR_SSL_BAD_INPUT_DATA]. *)
Definition session_engine : engine bool :=
  mk_engine bool
    (fun c live =>
       match c with
       | mbedtls_ssl_init _ => false
       | mbedtls_ssl_free _ => false
       | _ => live
       end)
    (fun c live =>
       match c with
       | mbedtls_ssl_setup _ _ => (0, true)
       | mbedtls_ssl_write _ _ len => (if live then len else -28928, live)
       | mbedtls_ssl_read _ _ len => (if live then len else -28928, live)
       | mbedtls_ssl_close_notify _ => (if live then 0 else -28928, live)
       | _ => (0, live)
       end)
    (fun _ _ => NULL).

(** The flags of a freshly loaded program (static storage is zeroed), and
    those of an initialized module with both slots free. *)
Definition module_at_boot : module_t := mk_module 0 0 0.
Definition module_ready : module_t := mk_module 1 0 0.

(** Caller objects as a C program has them before the first call. *)
Definition fresh_context : ssl_context_t := mk_context 0 NULL.
Definition fresh_socket : ssl_socket_t := mk_socket NULL.

(** The caller's transport handle and a data buffer. *)
Definition transport : pointer := addr (extern 1).
Definition buffer : pointer := addr (extern 2).

(** The engine's key-parsing step in [ssl_context_load_cert_chain]: a call
    when a key is given, nothing otherwise. *)
Definition key_step {E : Type} (h : engine E) (key_p : option string)
  (e : E) : Z * E :=
  match key_p with
  | Some key =>
      do_int h (mbedtls_pk_parse_key (addr module_key) key (strlen1 key)
                  NULL 0) e
  | None => (0, e)
  end.

Definition key_events (key_p : option string) : list event :=
  match key_p with
  | Some key =>
      [ev_int (mbedtls_pk_parse_key (addr module_key) key (strlen1 key)
                 NULL 0)]
  | None => []
  end.

Definition is_key_parse (ev : event) : bool :=
  match ev with
  | ev_int (mbedtls_pk_parse_key _ _ _ _ _) => true
  | _ => false
  end.

(** ** Observations on flags, traces and calls *)

(** A flag holds 0 or 1. *)
Definition is_flag (v : Z) : bool := (v =? 0) || (v =? 1).

Definition flags_wf (m : module_t) : bool :=
  is_flag (initialized m) && is_flag (ssl_allocated m) &&
  is_flag (conf_allocated m).

(** The one way the module seeds the generator. *)
Definition the_seed : event :=
  ev_int (mbedtls_ctr_drbg_seed (addr module_ctr_drbg)
            fn_mbedtls_entropy_func (addr module_entropy) "hej" 3).

Definition count_seeds (tr : list event) : nat :=
  List.length (List.filter is_seed tr).

(** The part of the module a call of the interface belongs to. *)
Inductive side : Type :=
| process_side
| configuration_side
| session_side.

Definition side_of (c : api) : side :=
  match c with
  | ModuleInit => process_side
  | ContextInit _ _ => configuration_side
  | ContextDeinit _ => configuration_side
  | LoadCertificateChain _ _ _ => configuration_side
  | SessionOpen _ _ _ _ => session_side
  | SessionClose _ => session_side
  | SessionWrite _ _ _ => session_side
  | SessionRead _ _ _ => session_side
  | SessionSize _ => session_side
  end.

(** The life of one connection, on the caller's objects: the context is
    initialized, a session opened on it, closed, and the context
    deinitialized, each call on the object the one before handed back.  The
    four return codes. *)
Definition lifecycle (context : ssl_context_t) (protocol : ssl_protocol_t)
  (session : ssl_socket_t) (socket_p : pointer) (mode : ssl_socket_mode_t)
  : M (Z * Z * Z * Z) :=
  i <- ssl_context_init (Some context) protocol ;;
  o <- ssl_socket_open (Some session) (snd i) socket_p mode ;;
  c <- ssl_socket_close (snd o) ;;
  d <- ssl_context_deinit (snd i) ;;
  ret (fst i, fst o, c, d).

(** ** Running programs: general facts *)

Section Runs.

Context {E : Type} (h : engine E).

Lemma exec_bind {A B : Type} (p : prog A) (f : A -> prog B) (e : E) :
  exec h (prog_bind p f) e =
  let o := exec h p e in
  let o' := exec h (f (result o)) (engine_state o) in
  mk_outcome (result o') (engine_state o') (trace o ++ trace o').
Proof.
  revert e.
  induction p as [a | c k IH | c k IH | l k IH]; intros e; simpl.
  - destruct (exec h (f a) e); reflexivity.
  - rewrite IH. reflexivity.
  - destruct (do_int h c e) as [r e']. rewrite IH. reflexivity.
  - rewrite IH. reflexivity.
Qed.

Lemma run_bind {A B : Type} (x : M A) (f : A -> M B) (m : module_t) (e : E) :
  run h (bind x f) m e =
  let o := run h x m e in
  let o' := run h (f (value o)) (flags o) (engine_state o) in
  mk_outcome (result o') (engine_state o') (trace o ++ trace o').
Proof. unfold run, bind. rewrite exec_bind. reflexivity. Qed.

Lemma run_ret {A : Type} (a : A) (m : module_t) (e : E) :
  run h (ret a) m e = mk_outcome (a, m) e [].
Proof. reflexivity. Qed.

End Runs.

(** Unfolds a module function down to the engine's answers. *)
Ltac ssl_unfold :=
  cbv [run value flags perform returned
       ssl_module_init ssl_context_init ssl_context_deinit
       ssl_context_load_cert_chain ssl_socket_open ssl_socket_close
       ssl_socket_write ssl_socket_read ssl_socket_size
       alloc_ssl free_ssl alloc_conf free_conf
       ASSERTN ASSERTN_not_null
       bind ret get put call_void call_int load prog_bind
       set_initialized set_ssl_allocated set_conf_allocated
       initialized ssl_allocated conf_allocated conf_p ssl_p protocol
       fst snd is_null negb] in *.

(** Case analysis on the next test or engine answer in the goal. *)
Ltac ssl_case :=
  match goal with
  | |- context [match ?p with NULL => _ | addr _ => _ end] =>
      destruct p
  | |- context [if ?b then _ else _] =>
      let H := fresh "Hb" in destruct b eqn:H
  | |- context [let '(_, _) := do_int ?h ?c ?e in _] =>
      let r := fresh "r" in
      let e' := fresh "e" in
      let H := fresh "Hr" in
      destruct (do_int h c e) as [r e'] eqn:H
  | |- context [match ?o with Some _ => _ | None => _ end] =>
      destruct o
  end.

Ltac ssl_simpl :=
  repeat change (1 =? 1) with true in *;
  cbn [exec logged result engine_state trace].

Ltac ssl_run := ssl_unfold; ssl_simpl; repeat (ssl_case; ssl_simpl).

(** ** The process state: [ssl_module_init] *)

Section ProcessState.

Context {E : Type} (h : engine E).

(** Once the flag is set, a call is a no-op that returns 0. *)
Lemma ssl_module_init_when_initialized (m : module_t) (e : E) :
  initialized m = 1 ->
  run h ssl_module_init m e = mk_outcome (0, m) e [].
Proof.
  intros Hi. destruct m as [i s c]; simpl in Hi; subst i.
  reflexivity.
Qed.

(** A call leaves the flag set, whatever it returns. *)
Lemma ssl_module_init_sets_flag (m : module_t) (e : E) :
  initialized (flags (run h ssl_module_init m e)) = 1.
Proof.
  destruct m as [i s c]. ssl_run; try reflexivity.
  apply Z.eqb_eq in Hb. exact Hb.
Qed.

(** No call of the interface clears the flag. *)
Lemma perform_keeps_initialized (c : api) (m : module_t) (e : E) :
  initialized m = 1 ->
  initialized (flags (run h (perform c) m e)) = 1.
Proof.
  intros Hi. destruct m as [i s cf]; simpl in Hi; subst i.
  destruct c; ssl_run; reflexivity.
Qed.

(** With the flag set, no call of the interface seeds the generator. *)
Lemma perform_never_seeds (c : api) (m : module_t) (e : E) :
  initialized m = 1 ->
  existsb is_seed (trace (run h (perform c) m e)) = false.
Proof.
  intros Hi. destruct m as [i s cf]; simpl in Hi; subst i.
  destruct c; ssl_run; reflexivity.
Qed.

Lemma perform_all_keeps_initialized (cs : list api) :
  forall (m : module_t) (e : E),
  initialized m = 1 ->
  initialized (flags (run h (perform_all cs) m e)) = 1 /\
  existsb is_seed (trace (run h (perform_all cs) m e)) = false.
Proof.
  induction cs as [| c cs IH]; intros m e Hi.
  - split; [exact Hi | reflexivity].
  - simpl perform_all. rewrite run_bind. cbn zeta.
    pose proof (perform_keeps_initialized c m e Hi) as Hk.
    pose proof (perform_never_seeds c m e Hi) as Hs.
    set (o := run h (perform c) m e) in *.
    rewrite run_bind. cbn zeta.
    destruct (IH (flags o) (engine_state o) Hk) as [Hk' Hs'].
    set (o' := run h (perform_all cs) (flags o) (engine_state o)) in *.
    rewrite run_ret. unfold flags, value in *. cbn [result trace fst snd].
    rewrite app_nil_r, existsb_app, Hs, Hs'. split; [exact Hk' | reflexivity].
Qed.

End ProcessState.

Section ProcessStateClaims.

Context {E : Type} (h : engine E).

(** C4.  [ssl_module_init] is idempotent after success: when a first call
    has returned 0, then after any further sequence of calls of the
    interface a later [ssl_module_init] returns 0, makes no engine call at
    all (so neither the entropy source nor the generator is initialized or
    seeded again) and leaves the flags and the engine state as they were. *)
Theorem ssl_module_init_idempotent (m : module_t) (e : E) (cs : list api) :
  let first := run h ssl_module_init m e in
  value first = 0 ->
  let between := run h (perform_all cs) (flags first) (engine_state first) in
  let later := run h ssl_module_init (flags between) (engine_state between) in
  value later = 0 /\
  trace later = [] /\
  flags later = flags between /\
  engine_state later = engine_state between.
Proof.
  intros first _ between later.
  assert (Hi : initialized (flags between) = 1).
  { apply perform_all_keeps_initialized, ssl_module_init_sets_flag. }
  unfold later. rewrite (ssl_module_init_when_initialized h _ _ Hi).
  repeat split.
Qed.

(** C9.  When a call of [ssl_module_init] fails, it failed in the seeding
    step, after the flag was set: it returns -1, its engine calls end with
    the seed, and the flag is 1.  From then on, through any sequence of
    calls, the generator is never seeded again, and [ssl_module_init]
    returns 0 without any engine call. *)
Theorem ssl_module_init_seed_failure_masked
  (m : module_t) (e : E) (cs : list api) :
  let first := run h ssl_module_init m e in
  value first <> 0 ->
  value first = -1 /\
  trace first =
    [ev_void (mbedtls_entropy_init (addr module_entropy));
     ev_void (mbedtls_ctr_drbg_init (addr module_ctr_drbg));
     ev_int (mbedtls_ctr_drbg_seed (addr module_ctr_drbg)
               fn_mbedtls_entropy_func (addr module_entropy) "hej" 3)] /\
  initialized (flags first) = 1 /\
  let between := run h (perform_all cs) (flags first) (engine_state first) in
  existsb is_seed (trace between) = false /\
  run h ssl_module_init (flags between) (engine_state between) =
    mk_outcome (0, flags between) (engine_state between) [].
Proof.
  intros first Hfail.
  assert (Hflag : initialized (flags first) = 1)
    by apply ssl_module_init_sets_flag.
  assert (Hshape : value first = -1 /\ trace first =
    [ev_void (mbedtls_entropy_init (addr module_entropy));
     ev_void (mbedtls_ctr_drbg_init (addr module_ctr_drbg));
     ev_int (mbedtls_ctr_drbg_seed (addr module_ctr_drbg)
               fn_mbedtls_entropy_func (addr module_entropy) "hej" 3)]).
  { clear Hflag. subst first. destruct m as [i s c]. revert Hfail.
    ssl_run; intros Hfail; try (exfalso; apply Hfail; reflexivity).
    split; reflexivity. }
  destruct Hshape as [Hv Ht].
  destruct (perform_all_keeps_initialized h cs _ (engine_state first) Hflag)
    as [Hk Hs].
  repeat split; try assumption.
  apply ssl_module_init_when_initialized. exact Hk.
Qed.

End ProcessStateClaims.

Lemma ssl_module_init_idempotent_witness :
  value (run (scripted all_succeed NULL) ssl_module_init module_at_boot tt) = 0 /\
  value (run (scripted all_succeed NULL) ssl_module_init
           (flags (run (scripted all_succeed NULL)
                     (perform_all [ContextInit (Some fresh_context) 0])
                     module_ready tt)) tt) = 0.
Proof.
  split; [reflexivity |].
  apply (ssl_module_init_idempotent (scripted all_succeed NULL)
           module_at_boot tt [ContextInit (Some fresh_context) 0]).
  reflexivity.
Defined.

Lemma ssl_module_init_seed_failure_masked_witness :
  value (run (scripted seed_fails NULL) ssl_module_init module_at_boot tt) <> 0 /\
  value (run (scripted seed_fails NULL) ssl_module_init module_at_boot tt) = -1.
Proof.
  split; [discriminate |].
  apply (ssl_module_init_seed_failure_masked (scripted seed_fails NULL)
           module_at_boot tt [ModuleInit]).
  discriminate.
Defined.

(** ** The two slots *)

Section Slots.

Context {E : Type} (h : engine E).

(** [ssl_context_init] on an occupied configuration slot: -1, the handle of
    the context is null, nothing else has changed and the engine was not
    called. *)
Lemma ssl_context_init_busy (m : module_t) (e : E)
  (self : ssl_context_t) (protocol : ssl_protocol_t) :
  initialized m = 1 ->
  conf_allocated m = 1 ->
  run h (ssl_context_init (Some self) protocol) m e =
  mk_outcome ((-1, Some (mk_context protocol NULL)), m) e [].
Proof.
  intros Hi Hc. destruct m as [i s c]; simpl in Hi, Hc; subst i c.
  reflexivity.
Qed.

(** [ssl_socket_open] on an occupied session slot, likewise. *)
Lemma ssl_socket_open_busy (m : module_t) (e : E)
  (self : ssl_socket_t) (context : ssl_context_t)
  (socket_p : pointer) (mode : ssl_socket_mode_t) :
  initialized m = 1 ->
  ssl_allocated m = 1 ->
  socket_p <> NULL ->
  run h (ssl_socket_open (Some self) (Some context) socket_p mode) m e =
  mk_outcome ((-1, Some (mk_socket NULL)), m) e [].
Proof.
  intros Hi Hs Hp. destruct m as [i s c]; simpl in Hi, Hs; subst i s.
  destruct socket_p; [contradiction | reflexivity].
Qed.

(** [ssl_context_init] on a free configuration slot takes the slot; it
    returns 0, or -1 right after the engine's default configuration. *)
Lemma ssl_context_init_free (m : module_t) (e : E)
  (self : ssl_context_t) (protocol : ssl_protocol_t) :
  initialized m = 1 ->
  conf_allocated m <> 1 ->
  let o := run h (ssl_context_init (Some self) protocol) m e in
  snd (value o) = Some (mk_context protocol (addr module_conf)) /\
  flags o = set_conf_allocated 1 m /\
  (fst (value o) = 0 \/
   fst (value o) = -1 /\
   last (trace o) (ev_load module_cert_next) =
     ev_int (mbedtls_ssl_config_defaults (addr module_conf)
               MBEDTLS_SSL_IS_SERVER MBEDTLS_SSL_TRANSPORT_STREAM
               MBEDTLS_SSL_PRESET_DEFAULT)).
Proof.
  intros Hi Hc. destruct m as [i s c]; simpl in Hi, Hc; subst i.
  apply Z.eqb_neq in Hc.
  ssl_run; try congruence; repeat split; auto.
Qed.

(** [ssl_socket_open] on a free session slot takes the slot and starts an
    engine session in it; the slot is held afterwards exactly when the call
    returned 0. *)
Lemma ssl_socket_open_free (m : module_t) (e : E)
  (self : ssl_socket_t) (context : ssl_context_t)
  (socket_p : pointer) (mode : ssl_socket_mode_t) :
  initialized m = 1 ->
  ssl_allocated m <> 1 ->
  socket_p <> NULL ->
  let o := run h (ssl_socket_open (Some self) (Some context) socket_p mode)
             m e in
  snd (value o) = Some (mk_socket (addr module_ssl)) /\
  hd_error (trace o) = Some (ev_void (mbedtls_ssl_init (addr module_ssl))) /\
  (fst (value o) = 0 -> flags o = set_ssl_allocated 1 m) /\
  (fst (value o) <> 0 -> flags o = set_ssl_allocated 0 m).
Proof.
  intros Hi Hs Hp. destruct m as [i s c]; simpl in Hi, Hs; subst i.
  apply Z.eqb_neq in Hs.
  destruct socket_p as [| sock]; [contradiction |].
  ssl_run; try congruence; repeat split; auto; try congruence;
    unfold nonzero in *;
    intros Hz; try (subst; discriminate); try contradiction.
Qed.

(** What [ssl_context_deinit] does, in full. *)
Lemma ssl_context_deinit_run (m : module_t) (e : E)
  (self_p : option ssl_context_t) :
  run h (ssl_context_deinit self_p) m e =
  match self_p with
  | None => mk_outcome (- EINVAL, m) e []
  | Some self =>
      if is_null (conf_p self) then mk_outcome (- EINVAL, m) e []
      else mk_outcome (0, set_conf_allocated 0 m) e []
  end.
Proof.
  destruct self_p as [[p [| o]] |]; reflexivity.
Qed.

(** What [ssl_socket_close] does, in full: the answer of the close-notify
    is dropped. *)
Lemma ssl_socket_close_run (m : module_t) (e : E)
  (self_p : option ssl_socket_t) :
  run h (ssl_socket_close self_p) m e =
  match self_p with
  | None => mk_outcome (- EINVAL, m) e []
  | Some self =>
      if is_null (ssl_p self) then mk_outcome (- EINVAL, m) e []
      else
        mk_outcome (0, set_ssl_allocated 0 m)
          (do_void h (mbedtls_ssl_free (ssl_p self))
             (snd (do_int h (mbedtls_ssl_close_notify (ssl_p self)) e)))
          [ev_int (mbedtls_ssl_close_notify (ssl_p self));
           ev_void (mbedtls_ssl_free (ssl_p self))]
  end.
Proof.
  destruct self_p as [[[| o]] |]; try reflexivity.
  ssl_run. reflexivity.
Qed.

End Slots.

Section SlotClaims.

Context {E : Type} (h : engine E).

(** C1.  When [ssl_socket_open] has taken the session slot and then fails,
    in the engine's session setup or in the handshake, the slot is free
    again when it returns: the flag is 0, so a call of [ssl_socket_open]
    that follows at once is given the slot, starts an engine session in it,
    and holds it if it returns 0. *)
Theorem ssl_socket_open_failure_releases_slot (m : module_t) (e : E)
  (self : ssl_socket_t) (context : ssl_context_t)
  (socket_p : pointer) (mode : ssl_socket_mode_t) :
  initialized m = 1 ->
  ssl_allocated m <> 1 ->
  socket_p <> NULL ->
  let o := run h (ssl_socket_open (Some self) (Some context) socket_p mode)
             m e in
  let setup := mbedtls_ssl_setup (addr module_ssl) (addr module_conf) in
  let bio := mbedtls_ssl_set_bio (addr module_ssl) socket_p
               fn_ssl_send fn_ssl_recv fn_null in
  let e1 := do_void h (mbedtls_ssl_init (addr module_ssl)) e in
  let e2 := do_void h bio (snd (do_int h setup e1)) in
  fst (value o) <> 0 ->
  (trace o = [ev_void (mbedtls_ssl_init (addr module_ssl)); ev_int setup] /\
   fst (value o) = fst (do_int h setup e1) \/
   trace o =
     [ev_void (mbedtls_ssl_init (addr module_ssl)); ev_int setup;
      ev_void bio;
      ev_int (mbedtls_ssl_handshake (addr module_ssl));
      ev_void (mbedtls_ssl_free (addr module_ssl))] /\
   fst (value o) =
     fst (do_int h (mbedtls_ssl_handshake (addr module_ssl)) e2)) /\
  ssl_allocated (flags o) = 0 /\
  forall (self' : ssl_socket_t) (context' : ssl_context_t)
         (socket_p' : pointer) (mode' : ssl_socket_mode_t),
    socket_p' <> NULL ->
    let o' := run h (ssl_socket_open (Some self') (Some context')
                       socket_p' mode')
                (flags o) (engine_state o) in
    snd (value o') = Some (mk_socket (addr module_ssl)) /\
    hd_error (trace o') =
      Some (ev_void (mbedtls_ssl_init (addr module_ssl))) /\
    (fst (value o') = 0 -> ssl_allocated (flags o') = 1).
Proof.
  intros Hi Hs Hp o setup bio e1 e2 Hfail.
  destruct (ssl_socket_open_free h m e self context socket_p mode Hi Hs Hp)
    as (_ & _ & _ & Hfree).
  fold o in Hfree. specialize (Hfree Hfail).
  split; [| split].
  - clear Hfree. subst o setup bio e1 e2. revert Hfail.
    destruct m as [i s c]; simpl in Hi, Hs; subst i.
    apply Z.eqb_neq in Hs.
    destruct socket_p as [| sock]; [contradiction |].
    ssl_run; intros Hfail; cbn [fst snd]; auto; try congruence;
      exfalso; apply Hfail; reflexivity.
  - rewrite Hfree. reflexivity.
  - intros self' context' socket_p' mode' Hp' o'.
    assert (Hi' : initialized (flags o) = 1) by (rewrite Hfree; exact Hi).
    assert (Hs' : ssl_allocated (flags o) <> 1)
      by (rewrite Hfree; discriminate).
    destruct (ssl_socket_open_free h (flags o) (engine_state o)
                self' context' socket_p' mode' Hi' Hs' Hp')
      as (Hself & Hhd & Hok & _).
    fold o' in Hself, Hhd, Hok.
    repeat split; try assumption.
    intros Hz. rewrite (Hok Hz). reflexivity.
Qed.

(** C3.  Each slot has one holder at most.  With the configuration slot
    occupied ([mc]), [ssl_context_init] returns -1 and changes neither the
    flags nor the engine; once the holder has been through
    [ssl_context_deinit], [ssl_context_init] is given the slot.  With the
    session slot occupied ([ms]), whatever the state of the configuration
    slot and of the context passed, [ssl_socket_open] returns -1 in the same
    way; once the holder has been through [ssl_socket_close],
    [ssl_socket_open] is given the slot. *)
Theorem slots_are_exclusive (mc ms : module_t) (e : E)
  (holder self : ssl_context_t) (protocol : ssl_protocol_t)
  (sholder sself : ssl_socket_t) (context : ssl_context_t)
  (socket_p : pointer) (mode : ssl_socket_mode_t) :
  initialized mc = 1 -> conf_allocated mc = 1 -> conf_p holder <> NULL ->
  initialized ms = 1 -> ssl_allocated ms = 1 -> ssl_p sholder <> NULL ->
  socket_p <> NULL ->
  (run h (ssl_context_init (Some self) protocol) mc e =
     mk_outcome ((-1, Some (mk_context protocol NULL)), mc) e [] /\
   let released := run h (ssl_context_deinit (Some holder)) mc e in
   let again := run h (ssl_context_init (Some self) protocol)
                  (flags released) (engine_state released) in
   value released = 0 /\
   conf_allocated (flags released) = 0 /\
   snd (value again) = Some (mk_context protocol (addr module_conf)) /\
   conf_allocated (flags again) = 1 /\
   (fst (value again) = 0 \/
    fst (value again) = -1 /\
    last (trace again) (ev_load module_cert_next) =
      ev_int (mbedtls_ssl_config_defaults (addr module_conf)
                MBEDTLS_SSL_IS_SERVER MBEDTLS_SSL_TRANSPORT_STREAM
                MBEDTLS_SSL_PRESET_DEFAULT))) /\
  (run h (ssl_socket_open (Some sself) (Some context) socket_p mode) ms e =
     mk_outcome ((-1, Some (mk_socket NULL)), ms) e [] /\
   let released := run h (ssl_socket_close (Some sholder)) ms e in
   let again := run h (ssl_socket_open (Some sself) (Some context)
                         socket_p mode)
                  (flags released) (engine_state released) in
   value released = 0 /\
   ssl_allocated (flags released) = 0 /\
   snd (value again) = Some (mk_socket (addr module_ssl)) /\
   hd_error (trace again) =
     Some (ev_void (mbedtls_ssl_init (addr module_ssl))) /\
   (fst (value again) = 0 -> ssl_allocated (flags again) = 1)).
Proof.
  intros Hic Hc Hholder His Hs Hsholder Hp. split.
  - split; [apply ssl_context_init_busy; assumption |].
    rewrite ssl_context_deinit_run.
    destruct (is_null (conf_p holder)) eqn:Hn;
      [destruct (conf_p holder); [contradiction | discriminate] |].
    cbv zeta. unfold flags, value. cbn [result engine_state fst snd].
    assert (Hi' : initialized (set_conf_allocated 0 mc) = 1) by exact Hic.
    assert (Hc' : conf_allocated (set_conf_allocated 0 mc) <> 1)
      by discriminate.
    destruct (ssl_context_init_free h _ e self protocol Hi' Hc')
      as (Hself & Hflags & Hres).
    unfold flags, value in Hself, Hflags, Hres.
    repeat split; try assumption.
    rewrite Hflags. reflexivity.
  - split; [apply ssl_socket_open_busy; assumption |].
    rewrite ssl_socket_close_run.
    destruct (is_null (ssl_p sholder)) eqn:Hn;
      [destruct (ssl_p sholder); [contradiction | discriminate] |].
    cbv zeta. unfold flags, value. cbn [result engine_state fst snd].
    assert (Hi' : initialized (set_ssl_allocated 0 ms) = 1) by exact His.
    assert (Hs' : ssl_allocated (set_ssl_allocated 0 ms) <> 1)
      by discriminate.
    match goal with
    | |- context [run h _ _ ?e'] =>
        destruct (ssl_socket_open_free h _ e' sself context socket_p mode
                    Hi' Hs' Hp) as (Hself & Hhd & Hok & _)
    end.
    unfold flags, value in Hself, Hhd, Hok.
    repeat split; try assumption.
    intros Hz. rewrite (Hok Hz). reflexivity.
Qed.

(** C10.  [ssl_socket_size] returns 0 for every session object, whatever
    the flags and the engine state, calls nothing and changes nothing; its
    one test is on the pointer, and a null pointer gets [-EINVAL]. *)
Theorem ssl_socket_size_is_zero (m : module_t) (e : E) :
  (forall self : ssl_socket_t,
     run h (ssl_socket_size (Some self)) m e = mk_outcome (0, m) e []) /\
  run h (ssl_socket_size None) m e = mk_outcome (- EINVAL, m) e [].
Proof. split; reflexivity. Qed.

End SlotClaims.

Lemma ssl_socket_open_failure_releases_slot_witness :
  initialized module_ready = 1 /\
  ssl_allocated module_ready <> 1 /\
  transport <> NULL /\
  fst (value (run (scripted handshake_fails NULL)
                (ssl_socket_open (Some fresh_socket) (Some fresh_context)
                   transport 0)
                module_ready tt)) <> 0 /\
  ssl_allocated
    (flags (run (scripted handshake_fails NULL)
              (ssl_socket_open (Some fresh_socket) (Some fresh_context)
                 transport 0)
              module_ready tt)) = 0.
Proof.
  split; [reflexivity |].
  split; [discriminate |].
  split; [discriminate |].
  split; [discriminate |].
  apply (ssl_socket_open_failure_releases_slot (scripted handshake_fails NULL)
           module_ready tt fresh_socket fresh_context transport 0);
    [reflexivity | discriminate | discriminate | discriminate].
Defined.

Lemma slots_are_exclusive_witness :
  run (scripted all_succeed NULL)
    (ssl_context_init (Some fresh_context) 0) (mk_module 1 0 1) tt =
    mk_outcome ((-1, Some (mk_context 0 NULL)), mk_module 1 0 1) tt [] /\
  run (scripted all_succeed NULL)
    (ssl_socket_open (Some fresh_socket) (Some fresh_context) transport 0)
    (mk_module 1 1 0) tt =
    mk_outcome ((-1, Some (mk_socket NULL)), mk_module 1 1 0) tt [].
Proof.
  assert (Hc : initialized (mk_module 1 0 1) = 1 /\
               conf_allocated (mk_module 1 0 1) = 1 /\
               conf_p (mk_context 0 (addr module_conf)) <> NULL)
    by (split; [reflexivity | split; [reflexivity | discriminate]]).
  assert (Hs : initialized (mk_module 1 1 0) = 1 /\
               ssl_allocated (mk_module 1 1 0) = 1 /\
               ssl_p (mk_socket (addr module_ssl)) <> NULL)
    by (split; [reflexivity | split; [reflexivity | discriminate]]).
  assert (Hp : transport <> NULL) by discriminate.
  destruct Hc as (Hc1 & Hc2 & Hc3). destruct Hs as (Hs1 & Hs2 & Hs3).
  destruct (slots_are_exclusive (scripted all_succeed NULL)
              (mk_module 1 0 1) (mk_module 1 1 0) tt
              (mk_context 0 (addr module_conf)) fresh_context 0
              (mk_socket (addr module_ssl)) fresh_socket fresh_context
              transport 0 Hc1 Hc2 Hc3 Hs1 Hs2 Hs3 Hp) as [[Hbusy _] [Hbusy' _]].
  split; [exact Hbusy | exact Hbusy'].
Defined.

(** ** Certificates *)

Section Certificates.

Context {E : Type} (h : engine E).

(** C8.  [ssl_context_load_cert_chain] on a context with a configuration:
    it first has the engine parse the certificate buffer into the module's
    chain; if that fails it returns -1 having called nothing else, so the
    configuration is as it was.  It has the key parsed exactly when a key
    is given, and returns -1 when that fails, again before touching the
    configuration.  When both parses succeed it gives the configuration, as
    CA chain, the [next] link of the module's chain as the parse left it
    (the certificates after the first), then binds the head of the chain
    and the module's key as own certificate; it returns 0 if the engine
    accepts the pair and -1 if not. *)
Theorem ssl_context_load_cert_chain_binds (m : module_t) (e : E)
  (self : ssl_context_t) (cert : string) (key_p : option string) :
  conf_p self <> NULL ->
  let o := run h (ssl_context_load_cert_chain (Some self) (Some cert) key_p)
             m e in
  let parse := mbedtls_x509_crt_parse (addr module_cert) cert
                 (strlen1 cert) in
  let r1 := fst (do_int h parse e) in
  let e1 := snd (do_int h parse e) in
  let r2 := fst (key_step h key_p e1) in
  let e2 := snd (key_step h key_p e1) in
  let next := do_load h module_cert_next e2 in
  let ca := mbedtls_ssl_conf_ca_chain (conf_p self) next NULL in
  let own := mbedtls_ssl_conf_own_cert (conf_p self)
               (addr module_cert) (addr module_key) in
  let r3 := fst (do_int h own (do_void h ca e2)) in
  flags o = m /\
  (r1 <> 0 ->
     value o = -1 /\ trace o = [ev_int parse] /\ engine_state o = e1) /\
  (key_p = None -> existsb is_key_parse (trace o) = false) /\
  (r1 = 0 -> r2 <> 0 ->
     value o = -1 /\ trace o = ev_int parse :: key_events key_p /\
     engine_state o = e2) /\
  (r1 = 0 -> r2 = 0 ->
     trace o =
       ev_int parse :: key_events key_p ++
       [ev_load module_cert_next; ev_void ca; ev_int own] /\
     value o = (if r3 =? 0 then 0 else -1)).
Proof.
  intros Hconf.
  destruct self as [proto [| conf]]; [contradiction | clear Hconf].
  destruct key_p as [key |]; cbv zeta; unfold key_step, key_events;
    ssl_run; unfold nonzero in *;
    repeat match goal with
           | H : negb (?r =? 0) = true |- _ =>
               apply negb_true_iff, Z.eqb_neq in H
           | H : negb (?r =? 0) = false |- _ =>
               apply negb_false_iff, Z.eqb_eq in H; subst r
           end;
    cbn [fst snd] in *;
    repeat split; intros; try reflexivity; try contradiction;
      try discriminate;
    match goal with
    | H : (?r =? 0) = true |- _ => apply Z.eqb_eq in H; contradiction
    | H : (?r =? 0) = false |- _ => apply Z.eqb_neq in H; contradiction
    end.
Qed.

End Certificates.

Lemma ssl_context_load_cert_chain_binds_witness :
  conf_p (mk_context 0 (addr module_conf)) <> NULL /\
  trace (run (scripted all_succeed (addr (extern 7)))
           (ssl_context_load_cert_chain
              (Some (mk_context 0 (addr module_conf)))
              (Some "CERT"%string) (Some "KEY"%string))
           module_ready tt) =
    [ev_int (mbedtls_x509_crt_parse (addr module_cert) "CERT" 5);
     ev_int (mbedtls_pk_parse_key (addr module_key) "KEY" 4 NULL 0);
     ev_load module_cert_next;
     ev_void (mbedtls_ssl_conf_ca_chain (addr module_conf)
                (addr (extern 7)) NULL);
     ev_int (mbedtls_ssl_conf_own_cert (addr module_conf)
               (addr module_cert) (addr module_key))].
Proof.
  split; [discriminate |].
  apply (ssl_context_load_cert_chain_binds
           (scripted all_succeed (addr (extern 7))) module_ready tt
           (mk_context 0 (addr module_conf)) "CERT" (Some "KEY"%string));
    [discriminate | reflexivity | reflexivity].
Defined.

(** ** Release and use after release *)

Section Release.

Context {E : Type} (h : engine E).

(** C5, as the code has it.  [ssl_context_deinit] returns [-EINVAL]
    exactly when the context pointer or the context's configuration handle
    is null, and then changes nothing.  For any other handle it clears the
    flag of the configuration slot and returns 0, without a call into the
    engine; it looks neither at the flag nor at who holds the slot, and the
    handle stays as it was, so the same call made again returns 0 again. *)
Theorem ssl_context_deinit_checks_handle (m : module_t) (e : E)
  (self_p : option ssl_context_t) :
  let o := run h (ssl_context_deinit self_p) m e in
  trace o = [] /\
  engine_state o = e /\
  (value o = - EINVAL <->
   self_p = None \/
   exists self, self_p = Some self /\ conf_p self = NULL) /\
  (value o = - EINVAL -> flags o = m) /\
  (value o <> - EINVAL ->
   value o = 0 /\
   flags o = set_conf_allocated 0 m /\
   run h (ssl_context_deinit self_p) (flags o) (engine_state o) =
     mk_outcome (0, flags o) (engine_state o) []).
Proof.
  cbv zeta. rewrite ssl_context_deinit_run.
  destruct self_p as [[proto [| conf]] |]; cbn [conf_p is_null];
    unfold value, flags; cbn [result engine_state trace fst snd].
  - repeat split; auto; try contradiction.
    right. exists (mk_context proto NULL). split; reflexivity.
  - repeat split; auto; try discriminate.
    intros [H | (self & H & Hn)]; [discriminate |].
    injection H as <-. discriminate.
  - repeat split; auto; contradiction.
Qed.

(** C6, as the code has it.  [ssl_socket_close] returns [-EINVAL] exactly
    when the session pointer or the session's handle is null, and then
    changes nothing.  For any other handle it has the engine send the
    close-notify and free the session, clears the flag of the session slot
    and returns 0: the answer of the close-notify is dropped, the flag is
    not looked at, and the handle stays as it was, so the same call made
    again returns 0 again. *)
Theorem ssl_socket_close_checks_handle (m : module_t) (e : E)
  (self_p : option ssl_socket_t) :
  let o := run h (ssl_socket_close self_p) m e in
  (value o = - EINVAL <->
   self_p = None \/
   exists self, self_p = Some self /\ ssl_p self = NULL) /\
  (value o = - EINVAL ->
   flags o = m /\ trace o = [] /\ engine_state o = e) /\
  (value o <> - EINVAL ->
   value o = 0 /\
   flags o = set_ssl_allocated 0 m /\
   (exists self, self_p = Some self /\
      trace o = [ev_int (mbedtls_ssl_close_notify (ssl_p self));
                 ev_void (mbedtls_ssl_free (ssl_p self))]) /\
   value (run h (ssl_socket_close self_p) (flags o) (engine_state o)) = 0).
Proof.
  cbv zeta. rewrite !ssl_socket_close_run.
  destruct self_p as [[[| ssl]] |]; cbn [ssl_p is_null];
    unfold value, flags; cbn [result engine_state trace fst snd].
  - repeat split; auto; try contradiction.
    right. exists (mk_socket NULL). split; reflexivity.
  - repeat split; auto; try discriminate.
    + intros [H | (self & H & Hn)]; [discriminate |].
      injection H as <-. discriminate.
    + exists (mk_socket (addr ssl)). split; reflexivity.
  - repeat split; auto; contradiction.
Qed.

(** C7, as the code has it.  After a [ssl_socket_close] that returned 0 the
    session's handle is still set, so [ssl_socket_write] and
    [ssl_socket_read] with a buffer pass their checks, call the engine's
    write or read on that handle and return its answer. *)
Theorem ssl_socket_io_after_close (m : module_t) (e : E)
  (self : ssl_socket_t) (buf_p : pointer) (size : Z) :
  let closed := run h (ssl_socket_close (Some self)) m e in
  value closed = 0 ->
  buf_p <> NULL ->
  let written := run h (ssl_socket_write (Some self) buf_p size)
                   (flags closed) (engine_state closed) in
  let got := run h (ssl_socket_read (Some self) buf_p size)
               (flags closed) (engine_state closed) in
  value written =
    fst (do_int h (mbedtls_ssl_write (ssl_p self) buf_p size)
           (engine_state closed)) /\
  trace written = [ev_int (mbedtls_ssl_write (ssl_p self) buf_p size)] /\
  value got =
    fst (do_int h (mbedtls_ssl_read (ssl_p self) buf_p size)
           (engine_state closed)) /\
  trace got = [ev_int (mbedtls_ssl_read (ssl_p self) buf_p size)].
Proof.
  cbv zeta. rewrite ssl_socket_close_run.
  destruct self as [[| ssl]]; cbn [ssl_p is_null];
    unfold value at 1; cbn [result fst]; [discriminate |].
  intros _ Hbuf. destruct buf_p as [| buf]; [contradiction |].
  unfold flags, value. cbn [result engine_state snd].
  ssl_run. cbn [fst]. repeat split.
Qed.

End Release.

Lemma ssl_socket_io_after_close_witness :
  value (run (scripted transfers_all NULL)
           (ssl_socket_close (Some (mk_socket (addr module_ssl))))
           (mk_module 1 1 1) tt) = 0 /\
  buffer <> NULL /\
  value (run (scripted transfers_all NULL)
           (ssl_socket_write (Some (mk_socket (addr module_ssl))) buffer 4)
           (mk_module 1 0 1) tt) = 4.
Proof.
  split; [reflexivity |].
  split; [discriminate |].
  apply (ssl_socket_io_after_close (scripted transfers_all NULL)
           (mk_module 1 1 1) tt (mk_socket (addr module_ssl)) buffer 4);
    [reflexivity | discriminate].
Defined.

(** ** Runs on which the stated behaviour fails *)

(** C5.  A context is initialized and deinitialized; the second
    [ssl_context_deinit] of the same context finds the slot free and still
    returns 0, not [-EINVAL].  When another context has taken the slot in
    between, that second call frees the other context's slot. *)
Lemma ssl_context_deinit_twice_succeeds :
  let h := scripted all_succeed NULL in
  let inited := run h (ssl_context_init (Some fresh_context) 0)
                  module_ready tt in
  let ctx := snd (value inited) in
  let first := run h (ssl_context_deinit ctx) (flags inited) tt in
  let second := run h (ssl_context_deinit ctx) (flags first) tt in
  let other := run h (ssl_context_init (Some fresh_context) 1)
                 (flags first) tt in
  let stale := run h (ssl_context_deinit ctx) (flags other) tt in
  fst (value inited) = 0 /\
  value first = 0 /\
  conf_allocated (flags first) = 0 /\
  value second = 0 /\
  value second <> - EINVAL /\
  fst (value other) = 0 /\
  conf_allocated (flags other) = 1 /\
  value stale = 0 /\
  conf_allocated (flags stale) = 0.
Proof.
  cbv zeta. repeat (split; [first [reflexivity | discriminate] |]).
  reflexivity.
Qed.

(** C6.  A session is opened and closed; the second [ssl_socket_close] of
    the same session finds the slot free, gets an error from the engine's
    close-notify on the freed session, and still returns 0.  So does
    [ssl_socket_close] on a session whose [ssl_socket_open] failed in the
    handshake. *)
Lemma ssl_socket_close_twice_succeeds :
  let h := session_engine in
  let opened := run h (ssl_socket_open (Some fresh_socket)
                         (Some fresh_context) transport 0)
                  module_ready false in
  let session := snd (value opened) in
  let first := run h (ssl_socket_close session)
                 (flags opened) (engine_state opened) in
  let second := run h (ssl_socket_close session)
                  (flags first) (engine_state first) in
  let refused := run (scripted handshake_fails NULL)
                   (ssl_socket_open (Some fresh_socket)
                      (Some fresh_context) transport 0)
                   module_ready tt in
  let unopened := run (scripted all_succeed NULL)
                    (ssl_socket_close (snd (value refused)))
                    (flags refused) tt in
  fst (value opened) = 0 /\
  value first = 0 /\
  ssl_allocated (flags first) = 0 /\
  do_int h (mbedtls_ssl_close_notify (addr module_ssl))
    (engine_state first) = (-28928, false) /\
  value second = 0 /\
  value second <> - EINVAL /\
  fst (value refused) = -80 /\
  ssl_allocated (flags refused) = 0 /\
  value unopened = 0 /\
  value unopened <> - EINVAL.
Proof.
  cbv zeta. repeat (split; [first [reflexivity | discriminate] |]).
  discriminate.
Qed.

(** C7.  A session is opened, four bytes are written, and the session is
    closed with success.  A write and a read that follow are handed to the
    engine all the same and return the engine's answer for a freed session,
    not [-EINVAL]. *)
Lemma ssl_socket_io_after_close_reaches_engine :
  let h := session_engine in
  let opened := run h (ssl_socket_open (Some fresh_socket)
                         (Some fresh_context) transport 0)
                  module_ready false in
  let session := snd (value opened) in
  let before := run h (ssl_socket_write session buffer 4)
                  (flags opened) (engine_state opened) in
  let closed := run h (ssl_socket_close session)
                  (flags before) (engine_state before) in
  let written := run h (ssl_socket_write session buffer 4)
                   (flags closed) (engine_state closed) in
  let got := run h (ssl_socket_read session buffer 4)
               (flags closed) (engine_state closed) in
  fst (value opened) = 0 /\
  value before = 4 /\
  value closed = 0 /\
  value written = -28928 /\
  value written <> - EINVAL /\
  trace written = [ev_int (mbedtls_ssl_write (addr module_ssl) buffer 4)] /\
  value got = -28928 /\
  value got <> - EINVAL /\
  trace got = [ev_int (mbedtls_ssl_read (addr module_ssl) buffer 4)].
Proof.
  cbv zeta. repeat (split; [first [reflexivity | discriminate] |]).
  reflexivity.
Qed.

(** C2.  The module is initialized and the configuration slot free; the
    engine's default configuration fails.  [ssl_context_init] returns -1
    with the slot still marked as taken, and the [ssl_context_init] that
    follows, on an engine that would succeed, returns -1 for want of a slot
    without calling the engine. *)
Lemma ssl_context_init_defaults_failure_keeps_slot :
  let failed := run (scripted defaults_fail NULL)
                  (ssl_context_init (Some fresh_context) 0)
                  module_ready tt in
  let retry := run (scripted all_succeed NULL)
                 (ssl_context_init (Some fresh_context) 0)
                 (flags failed) tt in
  value failed = (-1, Some (mk_context 0 (addr module_conf))) /\
  conf_allocated (flags failed) = 1 /\
  value retry = (-1, Some (mk_context 0 NULL)) /\
  trace retry = [].
Proof.
  cbv zeta. repeat (split; [reflexivity |]). reflexivity.
Qed.

(** ** Further properties of the module *)

Section Allocator.

Context {E : Type} (h : engine E).

(** Two allocations in a row: whatever the flag was, the second one is
    refused and the slot is marked as taken. *)
Theorem alloc_twice_second_refused (m : module_t) (e : E) :
  let s2 := run h (alloc_ssl ;; alloc_ssl) m e in
  let c2 := run h (alloc_conf ;; alloc_conf) m e in
  value s2 = NULL /\ ssl_allocated (flags s2) = 1 /\
  value c2 = NULL /\ conf_allocated (flags c2) = 1.
Proof.
  destruct m as [i s c]. cbv zeta.
  ssl_run; repeat split; try reflexivity;
    repeat match goal with
           | H : (_ =? 1) = true |- _ => apply Z.eqb_eq in H; subst
           end;
    try reflexivity; discriminate.
Qed.

(** A release followed by an allocation: whatever the flag was and whatever
    pointer is released, the allocation is granted the module's object and
    the other flags are as before. *)
Theorem free_then_alloc_granted (m : module_t) (e : E) (p : pointer) :
  let s := run h (free_ssl p ;; alloc_ssl) m e in
  let c := run h (free_conf p ;; alloc_conf) m e in
  value s = addr module_ssl /\ flags s = set_ssl_allocated 1 m /\
  value c = addr module_conf /\ flags c = set_conf_allocated 1 m /\
  trace s = [] /\ trace c = [].
Proof.
  destruct m as [i s c]. cbv zeta. ssl_unfold.
  change (0 =? 1) with false. cbn. repeat split.
Qed.

End Allocator.

Section Sequences.

Context {E : Type} (h : engine E).

Lemma perform_all_cons (c : api) (cs : list api) (m : module_t) (e : E) :
  run h (perform_all (c :: cs)) m e =
  let o := run h (perform c) m e in
  let o' := run h (perform_all cs) (flags o) (engine_state o) in
  mk_outcome (value o :: value o', flags o') (engine_state o')
    (trace o ++ trace o').
Proof.
  simpl perform_all. rewrite run_bind. cbv zeta.
  rewrite run_bind. cbv zeta. rewrite run_ret.
  unfold value, flags. cbn [result engine_state trace fst snd].
  rewrite app_nil_r. reflexivity.
Qed.

(** What every call keeps, every sequence keeps. *)
Lemma perform_all_invariant (P : module_t -> Prop) :
  (forall c m e, P m -> P (flags (run h (perform c) m e))) ->
  forall cs m e, P m -> P (flags (run h (perform_all cs) m e)).
Proof.
  intros Hstep cs. induction cs as [| c cs IH]; intros m e Hm.
  - exact Hm.
  - rewrite perform_all_cons. cbv zeta. unfold flags at 1.
    cbn [result snd]. apply IH, Hstep, Hm.
Qed.

Lemma perform_keeps_flags_wf (c : api) (m : module_t) (e : E) :
  flags_wf m = true -> flags_wf (flags (run h (perform c) m e)) = true.
Proof.
  destruct m as [i s cf]. unfold flags_wf, is_flag. cbn [initialized
    ssl_allocated conf_allocated]. intros Hwf.
  apply andb_true_iff in Hwf as [Hwf Hcf].
  apply andb_true_iff in Hwf as [Hi Hs].
  apply orb_true_iff in Hi as [Hi | Hi]; apply Z.eqb_eq in Hi; subst i;
    apply orb_true_iff in Hs as [Hs | Hs]; apply Z.eqb_eq in Hs; subst s;
    apply orb_true_iff in Hcf as [Hcf | Hcf]; apply Z.eqb_eq in Hcf;
    subst cf;
    destruct c; ssl_run; try reflexivity; discriminate.
Qed.

(** The three flags only ever hold 0 or 1: if they do before a sequence of
    calls of the interface, with any arguments and any engine, they do
    after it. *)
Theorem flags_stay_boolean (cs : list api) (m : module_t) (e : E) :
  flags_wf m = true ->
  flags_wf (flags (run h (perform_all cs) m e)) = true.
Proof.
  apply (perform_all_invariant (fun m => flags_wf m = true)).
  intros c m' e'. apply perform_keeps_flags_wf.
Qed.

End Sequences.

Lemma flags_stay_boolean_witness :
  flags_wf module_at_boot = true /\
  flags_wf (flags (run (scripted handshake_fails NULL)
                     (perform_all
                        [ModuleInit; ContextInit (Some fresh_context) 0;
                         SessionOpen (Some fresh_socket) (Some fresh_context)
                           transport 0])
                     module_at_boot tt)) = true.
Proof.
  split; [reflexivity |].
  apply (flags_stay_boolean (scripted handshake_fails NULL)); reflexivity.
Defined.

Section Seeding.

Context {E : Type} (h : engine E).

Lemma count_seeds_app (tr tr' : list event) :
  count_seeds (tr ++ tr') = (count_seeds tr + count_seeds tr')%nat.
Proof. unfold count_seeds. rewrite filter_app, length_app. reflexivity. Qed.

(** One call: it seeds in the module's one way, not at all once the flag
    is set, and at most once, setting the flag when it does. *)
Lemma perform_seeds (c : api) (m : module_t) (e : E) :
  let o := run h (perform c) m e in
  Forall (fun ev => is_seed ev = true -> ev = the_seed) (trace o) /\
  (initialized m = 1 ->
   count_seeds (trace o) = 0%nat /\ initialized (flags o) = 1) /\
  (count_seeds (trace o) = 0%nat \/
   count_seeds (trace o) = 1%nat /\ initialized (flags o) = 1).
Proof.
  destruct m as [i s cf]. cbv zeta.
  destruct c; ssl_run; cbn [initialized];
    (split; [repeat constructor; intros; try discriminate; reflexivity |]);
    (split; [intros Hi; subst; split; try reflexivity; discriminate |]);
    first [left; reflexivity | right; split; reflexivity].
Qed.

(** Through any sequence of calls of the interface, from any flags and on
    any engine, the generator is seeded at most once, not at all when the
    module was initialized before, and only ever from the module's entropy
    source with the personalization string "hej" of length 3. *)
Theorem generator_seeded_at_most_once (cs : list api) :
  forall (m : module_t) (e : E),
  let o := run h (perform_all cs) m e in
  (count_seeds (trace o) <= 1)%nat /\
  (initialized m = 1 -> count_seeds (trace o) = 0%nat) /\
  Forall (fun ev => is_seed ev = true -> ev = the_seed) (trace o).
Proof.
  induction cs as [| c cs IH]; intros m e.
  - cbv zeta. cbn. repeat split; auto.
  - cbv zeta. rewrite perform_all_cons. cbv zeta. cbn [trace].
    destruct (perform_seeds c m e) as (Hall & Hinit & Hcount).
    cbv zeta in Hall, Hinit, Hcount.
    set (o := run h (perform c) m e) in *.
    destruct (IH (flags o) (engine_state o)) as (Hle & Hnone & Hall').
    cbv zeta in Hle, Hnone, Hall'.
    rewrite count_seeds_app.
    split; [| split].
    + destruct Hcount as [H0 | [H1 Hi]].
      * rewrite H0. exact Hle.
      * rewrite H1, (Hnone Hi). apply le_n.
    + intros Hi. destruct (Hinit Hi) as [H0 Hi'].
      rewrite H0, (Hnone Hi'). reflexivity.
    + apply Forall_app. split; assumption.
Qed.

End Seeding.

Section Guards.

Context {E : Type} (h : engine E).

(** Before the module is initialized, [ssl_context_init] and
    [ssl_socket_open] return [-EINVAL] for any arguments; no slot is taken,
    the caller's object is as it was and the engine is not called. *)
Theorem uninitialized_module_refuses (m : module_t) (e : E)
  (context_p : option ssl_context_t) (protocol : ssl_protocol_t)
  (self_p : option ssl_socket_t) (socket_p : pointer)
  (mode : ssl_socket_mode_t) :
  initialized m <> 1 ->
  run h (ssl_context_init context_p protocol) m e =
    mk_outcome ((- EINVAL, context_p), m) e [] /\
  run h (ssl_socket_open self_p context_p socket_p mode) m e =
    mk_outcome ((- EINVAL, self_p), m) e [].
Proof.
  intros Hi. destruct m as [i s c]. cbn [initialized] in Hi.
  apply Z.eqb_neq in Hi.
  split.
  - destruct context_p; ssl_unfold; [rewrite Hi |]; reflexivity.
  - ssl_unfold. rewrite Hi. reflexivity.
Qed.

(** [ssl_socket_open] with a null session, context or transport pointer
    returns [-EINVAL] before it asks for the slot: flags, the caller's
    object and the engine are as they were. *)
Theorem ssl_socket_open_rejects_null (m : module_t) (e : E)
  (self_p : option ssl_socket_t) (context_p : option ssl_context_t)
  (socket_p : pointer) (mode : ssl_socket_mode_t) :
  self_p = None \/ context_p = None \/ socket_p = NULL ->
  run h (ssl_socket_open self_p context_p socket_p mode) m e =
    mk_outcome ((- EINVAL, self_p), m) e [].
Proof.
  intros Hnull. destruct m as [i s c].
  ssl_unfold. destruct (i =? 1); [| reflexivity].
  destruct self_p as [self |]; [| reflexivity].
  destruct context_p as [context |]; [| reflexivity].
  destruct socket_p as [| sock]; [reflexivity |].
  destruct Hnull as [H | [H | H]]; discriminate.
Qed.

(** Each call of the interface leaves the flags of the other parts alone:
    [ssl_module_init] touches neither slot, the functions on contexts touch
    neither the initialization flag nor the session slot, the functions on
    sessions neither the initialization flag nor the configuration slot. *)
Theorem sides_are_independent (c : api) (m : module_t) (e : E) :
  let o := run h (perform c) m e in
  match side_of c with
  | process_side =>
      ssl_allocated (flags o) = ssl_allocated m /\
      conf_allocated (flags o) = conf_allocated m
  | configuration_side =>
      initialized (flags o) = initialized m /\
      ssl_allocated (flags o) = ssl_allocated m
  | session_side =>
      initialized (flags o) = initialized m /\
      conf_allocated (flags o) = conf_allocated m
  end.
Proof.
  destruct m as [i s cf]. cbv zeta.
  destruct c; cbn [side_of]; ssl_run; split; reflexivity.
Qed.

(** [ssl_socket_open] looks at the context only to see that the pointer is
    not null, and not at the mode: the session is set up on the module's
    one configuration.  Its outcome is the same for any two contexts and
    modes, and whether or not the configuration slot is taken. *)
Theorem ssl_socket_open_ignores_context (m : module_t) (e : E)
  (self : ssl_socket_t) (context context' : ssl_context_t)
  (socket_p : pointer) (mode mode' : ssl_socket_mode_t) (v : Z) :
  let o := run h (ssl_socket_open (Some self) (Some context) socket_p mode)
             m e in
  let o' := run h (ssl_socket_open (Some self) (Some context') socket_p
                     mode')
              (set_conf_allocated v m) e in
  value o = value o' /\
  trace o = trace o' /\
  engine_state o = engine_state o' /\
  flags o' = set_conf_allocated v (flags o).
Proof.
  destruct m as [i s cf]. cbv zeta. ssl_run; repeat split.
Qed.

(** [ssl_context_init] records the protocol in the context and does nothing
    else with it: return code, handle, flags and engine calls are the same
    for any two protocols, and the configuration is always the server-side
    default one. *)
Theorem ssl_context_init_records_protocol (m : module_t) (e : E)
  (self : ssl_context_t) (p p' : ssl_protocol_t) :
  let o := run h (ssl_context_init (Some self) p) m e in
  let o' := run h (ssl_context_init (Some self) p') m e in
  fst (value o) = fst (value o') /\
  option_map conf_p (snd (value o)) = option_map conf_p (snd (value o')) /\
  flags o = flags o' /\
  trace o = trace o' /\
  engine_state o = engine_state o' /\
  (initialized m = 1 -> option_map protocol (snd (value o)) = Some p).
Proof.
  destruct m as [i s cf]. cbv zeta. ssl_run; cbn [initialized];
    repeat split; intros; try reflexivity;
    match goal with
    | H : (?i =? 1) = false, H' : ?i = 1 |- _ =>
        apply Z.eqb_neq in H; contradiction
    end.
Qed.

End Guards.

Lemma uninitialized_module_refuses_witness :
  initialized module_at_boot <> 1 /\
  run (scripted all_succeed NULL)
    (ssl_context_init (Some fresh_context) 0) module_at_boot tt =
    mk_outcome ((- EINVAL, Some fresh_context), module_at_boot) tt [].
Proof.
  split; [discriminate |].
  apply (uninitialized_module_refuses (scripted all_succeed NULL)
           module_at_boot tt (Some fresh_context) 0 (Some fresh_socket)
           transport 0).
  discriminate.
Defined.

Lemma ssl_socket_open_rejects_null_witness :
  (Some fresh_socket = None \/ Some fresh_context = None \/
   @eq pointer NULL NULL) /\
  run (scripted all_succeed NULL)
    (ssl_socket_open (Some fresh_socket) (Some fresh_context) NULL 0)
    module_ready tt =
    mk_outcome ((- EINVAL, Some fresh_socket), module_ready) tt [].
Proof.
  split; [right; right; reflexivity |].
  apply (ssl_socket_open_rejects_null (scripted all_succeed NULL)).
  right; right; reflexivity.
Defined.

Section Outcomes.

Context {E : Type} (h : engine E).

Ltac ssl_codes :=
  unfold nonzero in *;
  repeat match goal with
         | H : negb (?r =? 0) = true |- _ =>
             apply negb_true_iff, Z.eqb_neq in H
         | H : negb (?r =? 0) = false |- _ =>
             apply negb_false_iff, Z.eqb_eq in H; subst r
         end.

(** The first [ssl_module_init]: with the flag not yet set it sets the
    flag, initializes the entropy source and the generator and seeds the
    generator, in this order; it returns 0 exactly when the seed succeeds,
    and -1 whatever the engine's error code otherwise. *)
Theorem ssl_module_init_first_call (m : module_t) (e : E) :
  initialized m <> 1 ->
  let o := run h ssl_module_init m e in
  let e2 := do_void h (mbedtls_ctr_drbg_init (addr module_ctr_drbg))
              (do_void h (mbedtls_entropy_init (addr module_entropy)) e) in
  let seed := mbedtls_ctr_drbg_seed (addr module_ctr_drbg)
                fn_mbedtls_entropy_func (addr module_entropy) "hej" 3 in
  trace o =
    [ev_void (mbedtls_entropy_init (addr module_entropy));
     ev_void (mbedtls_ctr_drbg_init (addr module_ctr_drbg));
     ev_int seed] /\
  flags o = set_initialized 1 m /\
  engine_state o = snd (do_int h seed e2) /\
  (value o = 0 <-> fst (do_int h seed e2) = 0) /\
  (value o <> 0 -> value o = -1).
Proof.
  intros Hi. destruct m as [i s c]. cbn [initialized] in Hi.
  apply Z.eqb_neq in Hi. cbv zeta. ssl_unfold. rewrite Hi.
  ssl_simpl. repeat (ssl_case; ssl_simpl). 
  all: ssl_codes; cbn [fst snd]; repeat split; intros;
    try reflexivity; try discriminate; try contradiction.
Qed.

(** [ssl_context_init] on an initialized module with the slot free: the
    configuration, the cookie context, the certificate chain and the key
    are initialized, then the server-side defaults are applied; the call
    returns 0 exactly when the defaults succeed, and only then is the
    module's generator bound to the configuration. *)
Theorem ssl_context_init_succeeds_iff (m : module_t) (e : E)
  (self : ssl_context_t) (protocol : ssl_protocol_t) :
  initialized m = 1 ->
  conf_allocated m <> 1 ->
  let o := run h (ssl_context_init (Some self) protocol) m e in
  let inits :=
    [mbedtls_ssl_config_init (addr module_conf);
     mbedtls_ssl_cookie_init (addr module_cookie_ctx);
     mbedtls_x509_crt_init (addr module_cert);
     mbedtls_pk_init (addr module_key)] in
  let e4 := fold_left (fun e' c => do_void h c e') inits e in
  let defaults := mbedtls_ssl_config_defaults (addr module_conf)
                    MBEDTLS_SSL_IS_SERVER MBEDTLS_SSL_TRANSPORT_STREAM
                    MBEDTLS_SSL_PRESET_DEFAULT in
  let rng := mbedtls_ssl_conf_rng (addr module_conf)
               fn_mbedtls_ctr_drbg_random (addr module_ctr_drbg) in
  (fst (value o) = 0 <-> fst (do_int h defaults e4) = 0) /\
  (fst (value o) = 0 ->
   trace o = map ev_void inits ++ [ev_int defaults; ev_void rng]) /\
  (fst (value o) <> 0 ->
   fst (value o) = -1 /\
   trace o = map ev_void inits ++ [ev_int defaults]).
Proof.
  intros Hi Hc. destruct m as [i s c]. cbn [initialized conf_allocated] in *.
  subst i. apply Z.eqb_neq in Hc. cbv zeta. ssl_unfold. ssl_simpl.
  rewrite Hc. cbn [fold_left map app]. ssl_simpl.
  repeat (ssl_case; ssl_simpl).
  all: ssl_codes; cbn [fst snd]; repeat split; intros;
    try reflexivity; try discriminate; try contradiction.
Qed.

(** [ssl_socket_open] on an initialized module with the slot free and
    non-null arguments returns 0 exactly when the engine's session setup
    and handshake both succeed; the engine calls are then the session
    initialization, the setup on the module's configuration, the binding
    of the transport with the module's send and receive callbacks, and the
    handshake, and the slot is held. *)
Theorem ssl_socket_open_succeeds_iff (m : module_t) (e : E)
  (self : ssl_socket_t) (context : ssl_context_t)
  (socket_p : pointer) (mode : ssl_socket_mode_t) :
  initialized m = 1 ->
  ssl_allocated m <> 1 ->
  socket_p <> NULL ->
  let o := run h (ssl_socket_open (Some self) (Some context) socket_p mode)
             m e in
  let setup := mbedtls_ssl_setup (addr module_ssl) (addr module_conf) in
  let bio := mbedtls_ssl_set_bio (addr module_ssl) socket_p
               fn_ssl_send fn_ssl_recv fn_null in
  let shake := mbedtls_ssl_handshake (addr module_ssl) in
  let e1 := do_void h (mbedtls_ssl_init (addr module_ssl)) e in
  let e2 := do_void h bio (snd (do_int h setup e1)) in
  (fst (value o) = 0 <->
   fst (do_int h setup e1) = 0 /\ fst (do_int h shake e2) = 0) /\
  (fst (value o) = 0 ->
   trace o = [ev_void (mbedtls_ssl_init (addr module_ssl)); ev_int setup;
              ev_void bio; ev_int shake] /\
   flags o = set_ssl_allocated 1 m /\
   engine_state o = snd (do_int h shake e2)).
Proof.
  intros Hi Hs Hp. destruct m as [i s c]. cbn [initialized ssl_allocated] in *.
  subst i. apply Z.eqb_neq in Hs.
  destruct socket_p as [| sock]; [contradiction |].
  cbv zeta. ssl_unfold. ssl_simpl. rewrite Hs.
  ssl_simpl. repeat (ssl_case; ssl_simpl).
  all: ssl_codes; cbn [fst snd]; repeat split; intros;
    try reflexivity; try discriminate; try contradiction;
    repeat match goal with
           | H : _ /\ _ |- _ => destruct H
           end; try contradiction.
Qed.

(** The codes of the engine stay inside these functions: whatever the
    engine answers, [ssl_module_init] returns 0 or -1,
    [ssl_context_init] and [ssl_context_load_cert_chain] return 0, -1 or
    [-EINVAL], and [ssl_context_deinit], [ssl_socket_close] and
    [ssl_socket_size] return 0 or [-EINVAL]. *)
Theorem engine_codes_not_returned (m : module_t) (e : E)
  (context_p : option ssl_context_t) (protocol : ssl_protocol_t)
  (cert_p key_p : option string) (self_p : option ssl_socket_t) :
  In (value (run h ssl_module_init m e)) [0; -1] /\
  In (fst (value (run h (ssl_context_init context_p protocol) m e)))
    [0; -1; - EINVAL] /\
  In (value (run h (ssl_context_load_cert_chain context_p cert_p key_p) m e))
    [0; -1; - EINVAL] /\
  In (value (run h (ssl_context_deinit context_p) m e)) [0; - EINVAL] /\
  In (value (run h (ssl_socket_close self_p) m e)) [0; - EINVAL] /\
  In (value (run h (ssl_socket_size self_p) m e)) [0; - EINVAL].
Proof.
  destruct m as [i s c].
  repeat split; ssl_run; cbn [fst In]; auto 6.
Qed.

End Outcomes.

Lemma ssl_module_init_first_call_witness :
  initialized module_at_boot <> 1 /\
  flags (run (scripted seed_fails NULL) ssl_module_init module_at_boot tt) =
    set_initialized 1 module_at_boot.
Proof.
  split; [discriminate |].
  apply (ssl_module_init_first_call (scripted seed_fails NULL)
           module_at_boot tt).
  discriminate.
Defined.

Lemma ssl_context_init_succeeds_iff_witness :
  initialized module_ready = 1 /\
  conf_allocated module_ready <> 1 /\
  (fst (value (run (scripted defaults_fail NULL)
                 (ssl_context_init (Some fresh_context) 0)
                 module_ready tt)) = 0 <->
   -32512 = 0).
Proof.
  split; [reflexivity |].
  split; [discriminate |].
  apply (ssl_context_init_succeeds_iff (scripted defaults_fail NULL)
           module_ready tt fresh_context 0); [reflexivity | discriminate].
Defined.

Lemma ssl_socket_open_succeeds_iff_witness :
  initialized module_ready = 1 /\
  ssl_allocated module_ready <> 1 /\
  transport <> NULL /\
  (fst (value (run session_engine
                 (ssl_socket_open (Some fresh_socket) (Some fresh_context)
                    transport 0)
                 module_ready false)) = 0 <->
   0 = 0 /\ 0 = 0).
Proof.
  split; [reflexivity |].
  split; [discriminate |].
  split; [discriminate |].
  apply (ssl_socket_open_succeeds_iff session_engine module_ready false
           fresh_socket fresh_context transport 0);
    [reflexivity | discriminate | discriminate].
Defined.

Section Composition.

Context {E : Type} (h : engine E).

(** The life of one connection on an initialized module with both slots
    free: whatever the engine answers to the initialization of the context
    and to the opening of the session, the close and the deinitialization
    that follow return 0, and the flags are back where they started. *)
Theorem lifecycle_returns_slots (m : module_t) (e : E)
  (context : ssl_context_t) (protocol : ssl_protocol_t)
  (session : ssl_socket_t) (socket_p : pointer) (mode : ssl_socket_mode_t) :
  initialized m = 1 ->
  conf_allocated m = 0 ->
  ssl_allocated m = 0 ->
  socket_p <> NULL ->
  let o := run h (lifecycle context protocol session socket_p mode) m e in
  snd (fst (value o)) = 0 /\
  snd (value o) = 0 /\
  flags o = m.
Proof.
  intros Hi Hc Hs Hp. destruct m as [i s c].
  cbn [initialized conf_allocated ssl_allocated] in *. subst i s c.
  destruct socket_p as [| sock]; [contradiction |].
  cbv zeta. unfold lifecycle. ssl_unfold. ssl_simpl.
  change (0 =? 1) with false. ssl_simpl.
  repeat (ssl_case; ssl_simpl); repeat split; discriminate.
Qed.

(** [ssl_context_load_cert_chain] with a null context, a context without
    a configuration handle, or a null certificate returns [-EINVAL]; the
    engine is not called, so nothing is parsed or bound. *)
Theorem ssl_context_load_cert_chain_rejects_null (m : module_t) (e : E)
  (self_p : option ssl_context_t) (cert_p key_p : option string) :
  self_p = None \/
  (exists self, self_p = Some self /\ conf_p self = NULL) \/
  cert_p = None ->
  run h (ssl_context_load_cert_chain self_p cert_p key_p) m e =
    mk_outcome (- EINVAL, m) e [].
Proof.
  intros Hnull.
  destruct self_p as [[proto [| conf]] |]; try reflexivity.
  destruct cert_p as [cert |]; [| reflexivity].
  destruct Hnull as [H | [(self & H & Hn) | H]]; try discriminate.
  injection H as <-. discriminate.
Qed.

(** [ssl_context_load_cert_chain] neither reads nor writes the module's
    flags: it does the same on a module that is not initialized or whose
    configuration slot has been released as on one that holds the
    configuration. *)
Theorem ssl_context_load_cert_chain_ignores_flags (m m' : module_t) (e : E)
  (self_p : option ssl_context_t) (cert_p key_p : option string) :
  let o := run h (ssl_context_load_cert_chain self_p cert_p key_p) m e in
  let o' := run h (ssl_context_load_cert_chain self_p cert_p key_p) m' e in
  flags o = m /\
  value o = value o' /\
  trace o = trace o' /\
  engine_state o = engine_state o'.
Proof.
  cbv zeta. ssl_run; repeat split.
Qed.

(** [ssl_socket_write] and [ssl_socket_read] on a session with a handle and
    with a buffer make one call of the engine's write or read, with the
    handle, buffer and size they were given, and return its answer as it
    is, be it a byte count or an error; they do not try again, and they
    neither read nor write the module's flags. *)
Theorem ssl_socket_transfer_passes_through (m : module_t) (e : E)
  (self : ssl_socket_t) (buf_p : pointer) (size : Z) :
  ssl_p self <> NULL ->
  buf_p <> NULL ->
  let w := mbedtls_ssl_write (ssl_p self) buf_p size in
  let r := mbedtls_ssl_read (ssl_p self) buf_p size in
  run h (ssl_socket_write (Some self) buf_p size) m e =
    mk_outcome (fst (do_int h w e), m) (snd (do_int h w e)) [ev_int w] /\
  run h (ssl_socket_read (Some self) buf_p size) m e =
    mk_outcome (fst (do_int h r e), m) (snd (do_int h r e)) [ev_int r].
Proof.
  intros Hs Hb. destruct self as [[| ssl]]; [contradiction |].
  destruct buf_p as [| buf]; [contradiction |].
  cbv zeta. split; ssl_run; reflexivity.
Qed.

(** [ssl_socket_write] and [ssl_socket_read] with a null session, a session
    without a handle or a null buffer return [-EINVAL] without a call of
    the engine. *)
Theorem ssl_socket_transfer_rejects_null (m : module_t) (e : E)
  (self_p : option ssl_socket_t) (buf_p : pointer) (size : Z) :
  self_p = None \/
  (exists self, self_p = Some self /\ ssl_p self = NULL) \/
  buf_p = NULL ->
  run h (ssl_socket_write self_p buf_p size) m e =
    mk_outcome (- EINVAL, m) e [] /\
  run h (ssl_socket_read self_p buf_p size) m e =
    mk_outcome (- EINVAL, m) e [].
Proof.
  intros Hnull.
  destruct self_p as [[[| ssl]] |]; try (split; reflexivity).
  destruct buf_p as [| buf]; [split; reflexivity |].
  destruct Hnull as [H | [(self & H & Hn) | H]]; try discriminate.
  injection H as <-. discriminate.
Qed.

End Composition.

Lemma lifecycle_returns_slots_witness :
  initialized module_ready = 1 /\
  conf_allocated module_ready = 0 /\
  ssl_allocated module_ready = 0 /\
  transport <> NULL /\
  flags (run (scripted handshake_fails NULL)
           (lifecycle fresh_context 0 fresh_socket transport 0)
           module_ready tt) = module_ready.
Proof.
  split; [reflexivity |].
  split; [reflexivity |].
  split; [reflexivity |].
  split; [discriminate |].
  apply (lifecycle_returns_slots (scripted handshake_fails NULL)
           module_ready tt fresh_context 0 fresh_socket transport 0);
    [reflexivity | reflexivity | reflexivity | discriminate].
Defined.

Lemma ssl_context_load_cert_chain_rejects_null_witness :
  (Some (mk_context 0 (addr module_conf)) = None \/
   (exists self, Some (mk_context 0 (addr module_conf)) = Some self /\
                 conf_p self = NULL) \/
   @eq (option string) None None) /\
  run (scripted all_succeed NULL)
    (ssl_context_load_cert_chain (Some (mk_context 0 (addr module_conf)))
       None (Some "KEY"%string))
    module_ready tt =
    mk_outcome (- EINVAL, module_ready) tt [].
Proof.
  split; [right; right; reflexivity |].
  apply (ssl_context_load_cert_chain_rejects_null (scripted all_succeed NULL)).
  right; right; reflexivity.
Defined.

Lemma ssl_socket_transfer_passes_through_witness :
  ssl_p (mk_socket (addr module_ssl)) <> NULL /\
  buffer <> NULL /\
  run (scripted transfers_all NULL)
    (ssl_socket_write (Some (mk_socket (addr module_ssl))) buffer 4)
    module_ready tt =
    mk_outcome (4, module_ready) tt
      [ev_int (mbedtls_ssl_write (addr module_ssl) buffer 4)].
Proof.
  split; [discriminate |].
  split; [discriminate |].
  apply (ssl_socket_transfer_passes_through (scripted transfers_all NULL)
           module_ready tt (mk_socket (addr module_ssl)) buffer 4);
    discriminate.
Defined.

Lemma ssl_socket_transfer_rejects_null_witness :
  (Some fresh_socket = None \/
   (exists self, Some fresh_socket = Some self /\ ssl_p self = NULL) \/
   buffer = NULL) /\
  run (scripted transfers_all NULL)
    (ssl_socket_write (Some fresh_socket) buffer 4) module_ready tt =
    mk_outcome (- EINVAL, module_ready) tt [].
Proof.
  split; [right; left; exists fresh_socket; split; reflexivity |].
  apply (ssl_socket_transfer_rejects_null (scripted transfers_all NULL)).
  right; left; exists fresh_socket; split; reflexivity.
Defined.
